(** * geniepy.datamgmt.repositories: data access repositories

    A shallow embedding of [geniepy/datamgmt/repositories.py] and the
    properties of its two repositories: [SqlRepository], which talks to a
    relational engine through SQLAlchemy and pandas, and [GbqRepository],
    whose operations are not implemented.

    The module itself is a thin layer of calls into SQLAlchemy
    ([create_engine], [Table.create], [Table.drop]) and pandas
    ([DataFrame.to_sql], [read_sql], [read_sql_query]).  Those calls are
    gathered in the class [Driver]; the repositories are written once against
    it, so that what the module does with a result or an exception of the
    library is proved for every behaviour of the library.  Properties that
    depend on what the engine stores are proved for [mem_driver], a reference
    engine that keeps its tables in memory and follows the documented
    behaviour of the libraries. *)

From Stdlib Require Import ZArith List Lia.
From stdpp Require Import base strings gmap list.
From Equations Require Import Equations.
Import ListNotations.

Local Open Scope Z_scope.
Local Open Scope string_scope.
Local Open Scope list_scope.

(** ** Data model *)

(** The column types the module imports from SQLAlchemy. *)
Module sqltypes.
Inductive t := Integer | Float | String.
End sqltypes.

#[export] Instance sqltypes_eq_dec : EqDecision sqltypes.t.
Proof. solve_decision. Defined.

(** [Column(name, type, nullable=...)].  A column is nullable unless it says
    otherwise.  Every column of the module is declared without a primary key
    (the schemas say so: no primary key allows duplicate records), and keys
    are not part of the model. *)
Record Column := {
  col_name : string;
  col_type : sqltypes.t;
  nullable : bool
}.

(** [Table(name, MetaData(), *columns)]. *)
Record Table := {
  name : string;
  columns : list Column
}.


Definition CTD_TABLE_NAME : string := "ctd".

Definition CTD_DAO_TABLE : Table := {|
  name := CTD_TABLE_NAME;
  columns := [
    {| col_name := "digest"; col_type := sqltypes.String; nullable := false |};
    {| col_name := "genesymbol"; col_type := sqltypes.String; nullable := true |};
    {| col_name := "geneid"; col_type := sqltypes.Integer; nullable := false |};
    {| col_name := "diseasename"; col_type := sqltypes.String; nullable := true |};
    {| col_name := "diseaseid"; col_type := sqltypes.String; nullable := false |};
    {| col_name := "pmids"; col_type := sqltypes.String; nullable := false |} ]
|}.

Definition PUBMED_TABLE_NAME : string := "pubmed".

Definition PUBMED_DAO_TABLE : Table := {|
  name := PUBMED_TABLE_NAME;
  columns := [
    {| col_name := "pmid"; col_type := sqltypes.Integer; nullable := false |};
    {| col_name := "date_completed"; col_type := sqltypes.String; nullable := true |};
    {| col_name := "pub_model"; col_type := sqltypes.String; nullable := true |};
    {| col_name := "title"; col_type := sqltypes.String; nullable := true |};
    {| col_name := "iso_abbreviation"; col_type := sqltypes.String; nullable := true |};
    {| col_name := "article_title"; col_type := sqltypes.String; nullable := true |};
    {| col_name := "abstract"; col_type := sqltypes.String; nullable := true |};
    {| col_name := "authors"; col_type := sqltypes.String; nullable := true |};
    {| col_name := "language"; col_type := sqltypes.String; nullable := true |};
    {| col_name := "chemicals"; col_type := sqltypes.String; nullable := true |};
    {| col_name := "mesh_list"; col_type := sqltypes.String; nullable := true |} ]
|}.

Definition CLSFR_TABLE_NAME : string := "classifier".

Definition CLSFR_DAO_TABLE : Table := {|
  name := CLSFR_TABLE_NAME;
  columns := [
    {| col_name := "digest"; col_type := sqltypes.String; nullable := false |};
    {| col_name := "pub_score"; col_type := sqltypes.Float; nullable := false |};
    {| col_name := "ct_score"; col_type := sqltypes.Float; nullable := false |} ]
|}.


(** A cell of a row: a Python [int], [float] or [str], or the missing value.
    [NULL] is the missing value of pandas: [None], and NaN, which pandas
    writes as [None]; a float is carried by its 64 bit pattern. *)
Inductive Value :=
| NULL
| IntV (z : Z)
| FloatV (bits : Z)
| StrV (s : string).

Definition Row : Type := list Value.

(** A pandas [DataFrame]: named columns, each of one dtype ([int64],
    [float64] or [object], written as the column type they are stored under),
    and the rows in their order. *)
Record DataFrame := {
  df_columns : list (string * sqltypes.t);
  df_rows : list Row
}.

(** The integers of a 64 bit column. *)
Definition int64 (z : Z) : bool := ((- 2 ^ 63 <=? z) && (z <? 2 ^ 63))%Z.

(** The doubles a column gives back as it was given them: the pattern of a
    number (a NaN is [NULL], never a cell of its own) other than the
    negative zero, whose sign a database file does not keep. *)
Definition float64 (bits : Z) : bool :=
  ((0 <=? bits) && (bits <? 2 ^ 64)
   && negb (2047 * 2 ^ 52 <? Z.land bits (2 ^ 63 - 1))
   && negb (bits =? 2 ^ 63))%Z.

(** A value of a column type. *)
Definition cell_typed (ty : sqltypes.t) (v : Value) : bool :=
  match ty, v with
  | sqltypes.Integer, IntV z => int64 z
  | sqltypes.Float, FloatV bits => float64 bits
  | sqltypes.String, StrV _ => true
  | _, _ => false
  end.

(** A cell fits a column when it is a value of the type of the column, or
    missing where the column is nullable. *)
Definition cell_conforms (c : Column) (v : Value) : bool :=
  match v with
  | NULL => nullable c
  | _ => cell_typed (col_type c) v
  end.

Fixpoint row_conforms (cols : list Column) (row : Row) : bool :=
  match cols, row with
  | [], [] => true
  | c :: cols', v :: row' => cell_conforms c v && row_conforms cols' row'
  | _, _ => false
  end.


(** A cell pandas reads back from a column as it is stored: a value of the
    type of the column, or the missing value in a column of floats or of
    strings.  (A chunk with a missing value in a column of integers comes
    back with that column as floats.) *)
Definition cell_reads (c : Column) (v : Value) : bool :=
  match v, col_type c with
  | NULL, sqltypes.Integer => false
  | NULL, _ => true
  | _, ty => cell_typed ty v
  end.

Fixpoint row_reads (cols : list Column) (row : Row) : bool :=
  match cols, row with
  | [], [] => true
  | c :: cols', v :: row' => cell_reads c v && row_reads cols' row'
  | _, _ => false
  end.

(** ** Exceptions and the monad of the methods *)

(** The exceptions the module and its libraries raise.  All of them are
    instances of Python's [Exception], the class the [except] clause of
    [SqlRepository.save] names.

    Modelled from the spec: [geniepy.errors.DaoError], imported by the module
    and not defined in it, is the storage error that wraps the failure of the
    backend it was raised for. *)
Inductive Exception :=
| OperationalError (msg : string)
| IntegrityError (msg : string)
| DataError (msg : string)
| ArgumentError (msg : string)
| InvalidRequestError (msg : string)
| OverflowError (msg : string)
| ValueError (msg : string)
| NotImplementedError
| DaoError (cause : Exception).

Inductive Outcome (A : Type) :=
| Ok (a : A)
| Raise (e : Exception).
Arguments Ok {A} a.
Arguments Raise {A} e.

(** A call runs on a state, returns or raises, and leaves a state behind in
    both cases: what was written before an exception stays written. *)
Definition M (S A : Type) : Type := S -> Outcome A * S.

Definition ret {S A} (a : A) : M S A := fun s => (Ok a, s).

Definition raise {S A} (e : Exception) : M S A := fun s => (Raise e, s).

Definition bind {S A B} (m : M S A) (k : A -> M S B) : M S B :=
  fun s =>
    match m s with
    | (Ok a, s') => k a s'
    | (Raise e, s') => (Raise e, s')
    end.

(** [try: m except Exception as e: h e]. *)
Definition try_except {S A} (m : M S A) (h : Exception -> M S A) : M S A :=
  fun s =>
    match m s with
    | (Ok a, s') => (Ok a, s')
    | (Raise e, s') => h e s'
    end.

Declare Scope py_scope.
Delimit Scope py_scope with py.
Notation "x <- c ;; k" := (bind c (fun x => k))
  (at level 100, c at next level, right associativity) : py_scope.
Notation "c ;; k" := (bind c (fun _ => k))
  (at level 100, right associativity) : py_scope.
Local Open Scope py_scope.

(** ** Generators of chunks *)

(** What [read_sql] returns when it is given a chunk size: a finite,
    forward-only sequence of data frames.  Producing the next chunk may raise,
    which ends the sequence. *)
Inductive Generator :=
| GenStop
| GenYield (chunk : DataFrame) (rest : Generator)
| GenRaise (e : Exception).

(** The chunks a consumer receives, in order. *)
Fixpoint gen_chunks (g : Generator) : list DataFrame :=
  match g with
  | GenStop => []
  | GenYield c rest => c :: gen_chunks rest
  | GenRaise _ => []
  end.

(** The exception that ends the iteration, if one does. *)
Fixpoint gen_error (g : Generator) : option Exception :=
  match g with
  | GenStop => None
  | GenYield _ rest => gen_error rest
  | GenRaise e => Some e
  end.

(** [pd.concat] of the chunks, as rows. *)
Definition gen_rows (g : Generator) : list Row :=
  concat (map df_rows (gen_chunks g)).

(** ** The library calls of the module *)

(** [create_engine] returns an engine bound to a location: the URL it was
    given and the database the URL leads to, a file or a database in memory
    that the engine has to itself.  It connects lazily. *)
Record Engine := {
  url : string;
  database : string + N
}.

(** The calls the module makes into SQLAlchemy and pandas, on a backend of
    state [W].  Nothing is assumed about them. *)
Class Driver (W : Type) := {
  (** [create_engine(db_loc)] *)
  create_engine : string -> M W Engine;
  (** [table.create(engine)] *)
  Table_create : Table -> Engine -> M W unit;
  (** [table.drop(engine)] *)
  Table_drop : Table -> Engine -> M W unit;
  (** [payload.to_sql(name, con=engine, if_exists="append", index=False,
      method="multi")] *)
  to_sql : DataFrame -> string -> Engine -> M W unit;
  (** [pd.read_sql(name, con=engine, chunksize=chunksize)] *)
  read_sql : string -> Engine -> Z -> M W Generator;
  (** [pd.read_sql_query(query, engine, chunksize=chunksize)] *)
  read_sql_query : string -> Engine -> Z -> M W Generator
}.

(** ** Repositories *)

(** A repository object and the backend it talks to. *)
Record Sys (R W : Type) := {
  self : R;
  backend : W
}.
Arguments self {R W} _.
Arguments backend {R W} _.

(** Reading a slot of [self]. *)
Definition getattr {R W A} (slot : R -> A) : M (Sys R W) A :=
  fun s => (Ok (slot (self s)), s).

(** A call into the library: it runs on the backend, and has no access to the
    repository object. *)
Definition call {R W A} (m : M W A) : M (Sys R W) A :=
  fun s =>
    match m (backend s) with
    | (o, w') => (o, {| self := self s; backend := w' |})
    end.

(** [BaseRepository]: the slots [_table] and [_tablename], the property
    [tablename], and the three abstract methods. *)
Class BaseRepository (R W : Type) := {
  slot_table : R -> Table;
  slot_tablename : R -> string;
  save : DataFrame -> M (Sys R W) unit;
  delete_all : M (Sys R W) unit;
  query : option string -> Z -> M (Sys R W) Generator
}.

Definition tablename {R W} `{BaseRepository R W} : M (Sys R W) string :=
  getattr slot_tablename.

Module SqlRepository.
Record t := {
  _tablename : string;
  _table : Table;
  _engine : Engine
}.

Section Methods.
Context {W : Type} `{Driver W}.

Definition __init__ (db_loc tablename : string) (table : Table) : M W t :=
  engine <- create_engine db_loc ;;
  Table_create table engine ;;
  ret {| _tablename := tablename; _table := table; _engine := engine |}.

Definition save (payload : DataFrame) : M (Sys t W) unit :=
  tablename <- getattr _tablename ;;
  engine <- getattr _engine ;;
  try_except
    (call (to_sql payload tablename engine))
    (fun sql_exp => raise (DaoError sql_exp)).

Definition delete_all : M (Sys t W) unit :=
  table <- getattr _table ;;
  engine <- getattr _engine ;;
  call (Table_drop table engine) ;;
  call (Table_create table engine).

Definition query (query : option string) (chunksize : Z)
  : M (Sys t W) Generator :=
  tablename <- getattr _tablename ;;
  engine <- getattr _engine ;;
  match query with
  | None => call (read_sql tablename engine chunksize)
  | Some q => call (read_sql_query q engine chunksize)
  end.
End Methods.
End SqlRepository.

#[export] Instance SqlRepository_repo {W} `{Driver W}
  : BaseRepository SqlRepository.t W := {|
  slot_table := SqlRepository._table;
  slot_tablename := SqlRepository._tablename;
  save := SqlRepository.save;
  delete_all := SqlRepository.delete_all;
  query := SqlRepository.query
|}.

(** The call of the library that [SqlRepository.query] hands over to. *)
Definition read_call {W} `{Driver W} (r : SqlRepository.t)
  (q : option string) (chunksize : Z) : M W Generator :=
  match q with
  | None =>
      read_sql (SqlRepository._tablename r) (SqlRepository._engine r) chunksize
  | Some text => read_sql_query text (SqlRepository._engine r) chunksize
  end.

(** The credentials object of [google.oauth2.service_account]. *)
Record Credentials := { service_account_file : string }.

Module GbqRepository.
(** The slot [_credentials] is declared and never assigned: the statements
    of [__init__] that would load the credentials and set the project of
    [pandas_gbq.context] are commented out.  An unassigned slot is [None]. *)
Record t := {
  _tablename : string;
  _table : Table;
  _proj : string;
  _credentials : option Credentials
}.

Section Methods.
Context {W : Type}.

Definition __init__ (db_loc tablename : string) (table : Table)
  (credentials_path : string) : M W t :=
  ret {| _tablename := tablename; _table := table; _proj := db_loc;
         _credentials := None |}.

Definition save (payload : DataFrame) : M (Sys t W) unit :=
  raise NotImplementedError.

Definition delete_all : M (Sys t W) unit :=
  raise NotImplementedError.

Definition query (query : option string) (chunksize : Z)
  : M (Sys t W) Generator :=
  raise NotImplementedError.
End Methods.
End GbqRepository.

#[export] Instance GbqRepository_repo {W}
  : BaseRepository GbqRepository.t W := {|
  slot_table := GbqRepository._table;
  slot_tablename := GbqRepository._tablename;
  save := GbqRepository.save;
  delete_all := GbqRepository.delete_all;
  query := GbqRepository.query
|}.

(** ** Sequences of calls *)

(** The operations a caller can invoke on a repository. *)
Inductive Call :=
| CallSave (payload : DataFrame)
| CallDeleteAll
| CallQuery (query : option string) (chunksize : Z).

(** One call: what it returned is dropped, the state it leaves is kept,
    whether it returned or raised. *)
Definition step {R W} `{BaseRepository R W} (c : Call) (s : Sys R W)
  : Sys R W :=
  match c with
  | CallSave payload => snd (save payload s)
  | CallDeleteAll => snd (delete_all s)
  | CallQuery q chunksize => snd (query q chunksize s)
  end.

Definition run_calls {R W} `{BaseRepository R W} (cs : list Call)
  (s : Sys R W) : Sys R W :=
  fold_left (fun s c => step c s) cs s.


(** ** A reference engine *)

(** The engine the module is written for is SQLite, reached through its
    Python driver.  The reference engine keeps, for every database, its
    tables; a table is its columns and its rows in the order of insertion.  A
    table without a key is scanned in that order.  A database can be opened
    and written to, and is changed by no one else; the failures of the
    environment (a lost connection, a full disk) are covered by the results
    proved for every [Driver]. *)
Record StoredTable := {
  st_columns : list Column;
  st_rows : list Row
}.

(** The engine compares the names of tables and of columns without regard to
    the case of the letters A to Z. *)
Definition lower_ascii (a : Ascii.ascii) : Ascii.ascii :=
  let n := Ascii.N_of_ascii a in
  if ((65 <=? n) && (n <=? 90))%N then Ascii.ascii_of_N (n + 32) else a.

Fixpoint lower (s : string) : string :=
  match s with
  | EmptyString => EmptyString
  | String a s' => String (lower_ascii a) (lower s')
  end.

(** The tables of a database, each under its name in lower case and with the
    name it was created under. *)
Abbreviation Database := (gmap string (string * StoredTable)).

(** The databases, and the number of engines made so far for a database in
    memory. *)
Record World := {
  engines : N;
  databases : gmap (string + N) Database
}.

#[export] Instance World_empty : Empty World :=
  {| engines := 0; databases := ∅ |}.

(** A location that holds no database yet holds an empty one. *)
Definition database_at (w : World) (engine : Engine) : Database :=
  default ∅ (databases w !! database engine).

Definition put_database (w : World) (engine : Engine) (db : Database)
  : World :=
  {| engines := engines w;
     databases := <[database engine := db]> (databases w) |}.

Definition set_table (w : World) (engine : Engine) (tname declared : string)
  (st : StoredTable) : World :=
  put_database w engine (<[lower tname := (declared, st)]> (database_at w engine)).

Definition drop_table (w : World) (engine : Engine) (tname : string)
  : World :=
  put_database w engine (delete (lower tname) (database_at w engine)).

(** A table the engine holds has a column, and no two columns of one name;
    an entry that is not so is no table. *)
Definition holds (st : StoredTable) : bool :=
  match st_columns st with
  | [] => false
  | _ :: _ =>
      bool_decide (NoDup (map (fun c => lower (col_name c)) (st_columns st)))
  end.

(** The table of a name in the database of an engine, with the name it was
    created under. *)
Definition entry_at (w : World) (engine : Engine) (tname : string)
  : option (string * StoredTable) :=
  match database_at w engine !! lower tname with
  | Some (declared, st) => if holds st then Some (declared, st) else None
  | None => None
  end.

Definition table_at (w : World) (engine : Engine) (tname : string)
  : option StoredTable :=
  snd <$> entry_at w engine tname.

(** The frame pandas yields for a result without rows: the columns, of dtype
    [object]. *)
Definition empty_frame (cols : list Column) : DataFrame := {|
  df_columns := map (fun c => (col_name c, sqltypes.String)) cols;
  df_rows := []
|}.

(** What the module leaves to SQLAlchemy, pandas and the engine, and what
    differs from one release or build of them to the next. *)
Class Dialect := {
  (** What [create_engine] makes of a location: the exception it raises for
      a string that is no URL it knows, or the database file the URL names,
      [None] for a database in memory. *)
  resolve : string -> Outcome (option string);
  (** A name as SQLAlchemy writes it in a statement, in quotes where it
      needs them. *)
  spelled : string -> string;
  (** The error of CREATE TABLE for a name that is free: a name the engine
      keeps to itself, a table without columns, two columns of one name. *)
  create_error : string -> list Column -> option Exception;
  (** The error of an INSERT of rows for the named columns that the engine
      refuses for its size: too many variables, too long a statement, too
      large a value. *)
  statement_error : list string -> list Row -> option Exception;
  (** What the engine stores when a value is written to a column of a type,
      or the exception the driver or the engine raises for the value. *)
  coerce : sqltypes.t -> Value -> Outcome Value;
  (** Whether [read_sql] finds, under a name, the table that was created
      under a spelling of the name.  It does under the name the table was
      created under; under another spelling, which the engine takes for
      the same name, some releases of pandas find the table and others look
      it up by its exact name and raise. *)
  finds : string -> string -> bool;
  (** The frame pandas makes of the rows fetched from a table, which it
      casts to the types of the columns, or the exception of the cast. *)
  read_frame : list Column -> list Row -> Outcome DataFrame;
  (** [pd.read_sql_query] on a database: what the engine and pandas make of
      a statement given as text, and the database the statement leaves. *)
  read_query : string -> Z -> Database -> Outcome Generator * Database;
  create_error_columns : forall tname cols,
    create_error tname cols = None ->
    cols <> [] /\ NoDup (map (fun c => lower (col_name c)) cols);
  finds_own : forall tname, finds tname tname = true;
  coerce_NULL : forall ty, coerce ty NULL = Ok NULL;
  coerce_typed : forall ty v, cell_typed ty v = true -> coerce ty v = Ok v;
  read_frame_typed : forall cols rows,
    rows <> [] ->
    forallb (row_reads cols) rows = true ->
    read_frame cols rows =
    Ok {| df_columns := map (fun c => (col_name c, col_type c)) cols;
          df_rows := rows |}
}.

(** [cursor.fetchmany(size)] of the driver of SQLite, on the rows a cursor
    has left: the rows fetched and the rows left.  The size is a C [int]; a
    size that is not positive fetches every row left. *)
Definition fetchmany (size : Z) (cursor : list Row)
  : Outcome (list Row * list Row) :=
  if ((size <? - 2 ^ 31) || (2 ^ 31 <=? size))%Z
  then Raise (OverflowError "Python int too large to convert to C int")
  else if (size <=? 0)%Z then Ok (cursor, [])
  else Ok (take (Z.to_nat size) cursor, drop (Z.to_nat size) cursor).

Definition inspect {A} (a : A) : {b : A | a = b} := exist _ a eq_refl.

(** [_query_iterator] of pandas: fetch [chunksize] rows until a fetch
    returns none, and yield the frame of each fetch that returned some; a
    result without rows yields one frame without rows (from pandas 1.3 on).
    The generator runs as it is consumed: the exception of a fetch or of a
    cast ends the iteration. *)
Equations? query_iterator (convert : list Row -> Outcome DataFrame)
  (empty : DataFrame) (chunksize : Z) (cursor : list Row)
  (has_read_data : bool) : Generator
  by wf (length cursor) lt :=
  query_iterator convert empty chunksize cursor has_read_data
    with inspect (fetchmany chunksize cursor) := {
    | exist _ (Raise e) _ := GenRaise e;
    | exist _ (Ok ([], _)) _ :=
        if has_read_data then GenStop else GenYield empty GenStop;
    | exist _ (Ok (r :: data, rest)) Hfetch with convert (r :: data) := {
      | Raise e := GenRaise e;
      | Ok frame :=
          GenYield frame (query_iterator convert empty chunksize rest true) } }.
Proof.
  unfold fetchmany in Hfetch.
  destruct (_ || _); [done |].
  destruct (chunksize <=? 0)%Z eqn:Hsize; injection Hfetch as Hdata <-.
  - subst cursor. simpl. lia.
  - rewrite length_drop.
    destruct (Z.to_nat chunksize) eqn:Hn; [lia |].
    destruct cursor; [discriminate |]. simpl. lia.
Qed.

Section Engine.
Context `{Dialect}.

(** [create_engine(db_loc)].  Every engine of a file shares the database of
    the file; an engine of a database in memory has a new, empty database of
    its own. *)
Definition mem_create_engine (db_loc : string) : M World Engine :=
  fun w =>
    match resolve db_loc with
    | Raise e => (Raise e, w)
    | Ok (Some file) => (Ok {| url := db_loc; database := inl file |}, w)
    | Ok None =>
        (Ok {| url := db_loc; database := inr (engines w) |},
         {| engines := engines w + 1;
            databases := delete (inr (engines w)) (databases w) |})
    end.

(** [Table.create(bind, checkfirst=False)]: the module leaves [checkfirst] at
    its default, so CREATE TABLE is issued without looking for the table, and
    the engine refuses a name that is taken. *)
Definition mem_Table_create (table : Table) (engine : Engine)
  : M World unit :=
  fun w =>
    match table_at w engine (name table) with
    | Some _ =>
        (Raise (OperationalError
                  ("table " +:+ spelled (name table) +:+ " already exists")),
         w)
    | None =>
        match create_error (name table) (columns table) with
        | Some e => (Raise e, w)
        | None =>
            (Ok tt,
             set_table w engine (name table) (name table)
               {| st_columns := columns table; st_rows := [] |})
        end
    end.

(** [Table.drop(bind, checkfirst=False)]: DROP TABLE, refused when there is
    no such table. *)
Definition mem_Table_drop (table : Table) (engine : Engine) : M World unit :=
  fun w =>
    match table_at w engine (name table) with
    | Some _ => (Ok tt, drop_table w engine (name table))
    | None => (Raise (OperationalError ("no such table: " +:+ name table)), w)
    end.

(** [dict(zip(keys, row)).get(c)], the parameters of a row by column name:
    of two entries with one key the later stands. *)
Fixpoint zip_get (keys : list string) (row : Row) (c : string)
  : option Value :=
  match keys, row with
  | k :: keys', v :: row' =>
      match zip_get keys' row' c with
      | Some v' => Some v'
      | None => if String.eqb k c then Some v else None
      end
  | _, _ => None
  end.

(** The name in an INSERT that stands for a column of the table: the first
    that is the name of the column, whatever the case of its letters. *)
Definition named (keys : list string) (c : Column) : option string :=
  List.find (fun k => String.eqb (lower k) (lower (col_name c))) keys.

(** The cell the engine stores in a column for a row of an INSERT that names
    the columns [keys]: the value given for the column, or NULL when the
    statement does not name it (no column of the module has a default). *)
Definition store_cell (declared : string) (keys : list string) (row : Row)
  (c : Column) : Outcome Value :=
  let given :=
    match named keys c with
    | Some k => default NULL (zip_get keys row k)
    | None => NULL
    end in
  match coerce (col_type c) given with
  | Raise e => Raise e
  | Ok NULL =>
      if nullable c then Ok NULL
      else Raise (IntegrityError
                    ("NOT NULL constraint failed: "
                     +:+ declared +:+ "." +:+ col_name c))
  | Ok v => Ok v
  end.

Fixpoint traverse {A B} (f : A -> Outcome B) (l : list A)
  : Outcome (list B) :=
  match l with
  | [] => Ok []
  | a :: l' =>
      match f a with
      | Raise e => Raise e
      | Ok b =>
          match traverse f l' with
          | Raise e => Raise e
          | Ok bs => Ok (b :: bs)
          end
      end
  end.

(** The first of [keys] that is not a column of the table. *)
Definition unknown_column (cols : list Column) (keys : list string)
  : option string :=
  List.find
    (fun k =>
       negb (existsb (fun c => String.eqb (lower (col_name c)) (lower k)) cols))
    keys.

(** One INSERT of several rows into the table [tname], created as
    [declared]: the rows it adds to the table, or the error of the
    statement, in which case none is added. *)
Definition insert_multi (tname declared : string) (cols : list Column)
  (keys : list string) (rows : list Row) : Outcome (list Row) :=
  match statement_error keys rows with
  | Some e => Raise e
  | None =>
      match unknown_column cols keys with
      | Some k =>
          Raise (OperationalError
                   ("table " +:+ tname +:+ " has no column named " +:+ k))
      | None =>
          traverse (fun row => traverse (store_cell declared keys row) cols)
            rows
      end
  end.

(** The table pandas creates for a frame when there is none of the name:
    a column for each column of the frame, nullable. *)
Definition frame_table (df : DataFrame) : StoredTable := {|
  st_columns :=
    map (fun c => {| col_name := fst c; col_type := snd c; nullable := true |})
      (df_columns df);
  st_rows := []
|}.

(** The rows of the statement of a frame that has some: for a frame with
    columns its rows, cell by cell; a frame without columns has no cell to
    hand over, and its statement is the INSERT of one row of defaults. *)
Definition sent_rows (df : DataFrame) : list Row :=
  match df_columns df with
  | [] => [[]]
  | _ :: _ => df_rows df
  end.

(** [SQLTable.insert(method="multi")] into a table: nothing is sent for a
    frame without rows, and else all rows go in one INSERT inside a
    transaction. *)
Definition insert_frame (df : DataFrame) (tname declared : string)
  (engine : Engine) (st : StoredTable) : M World unit :=
  fun w =>
    match df_rows df with
    | [] => (Ok tt, w)
    | _ :: _ =>
        match insert_multi tname declared (st_columns st)
                (map fst (df_columns df)) (sent_rows df) with
        | Raise e => (Raise e, w)
        | Ok rows =>
            (Ok tt,
             set_table w engine tname declared
               {| st_columns := st_columns st;
                  st_rows := st_rows st ++ rows |})
        end
    end.

(** [DataFrame.to_sql(name, con, if_exists="append", index=False,
    method="multi")].  [SQLTable.create] keeps a table that exists and
    creates one from the frame otherwise, which stays when the INSERT
    fails. *)
Definition mem_to_sql (df : DataFrame) (tname : string) (engine : Engine)
  : M World unit :=
  fun w =>
    match entry_at w engine tname with
    | Some (declared, st) => insert_frame df tname declared engine st w
    | None =>
        match create_error tname (st_columns (frame_table df)) with
        | Some e => (Raise e, w)
        | None =>
            insert_frame df tname tname engine (frame_table df)
              (set_table w engine tname tname (frame_table df))
        end
    end.

(** [pd.read_sql_query(sql, con, chunksize)]. *)
Definition mem_read_sql_query (sql : string) (engine : Engine)
  (chunksize : Z) : M World Generator :=
  fun w =>
    match read_query sql chunksize (database_at w engine) with
    | (o, db) => (o, put_database w engine db)
    end.

(** [pd.read_sql(sql, con, chunksize)]: a name of a table is read with
    [read_sql_table], which selects every column of every row when it is
    called; anything else is taken for a query.  The generator yields the
    rows the table has at the call: a table that is written to while the
    generator is consumed is outside the model. *)
Definition mem_read_sql (sql : string) (engine : Engine) (chunksize : Z)
  : M World Generator :=
  fun w =>
    match entry_at w engine sql with
    | Some (declared, st) =>
        if finds declared sql
        then
          (Ok (query_iterator (read_frame (st_columns st))
                 (empty_frame (st_columns st)) chunksize (st_rows st) false),
           w)
        else
          (Raise (InvalidRequestError
                    ("Could not reflect: requested table(s) not available in "
                     +:+ "Engine(" +:+ url engine +:+ "): (" +:+ sql +:+ ")")),
           w)
    | None => mem_read_sql_query sql engine chunksize w
    end.

#[export] Instance mem_driver : Driver World := {|
  create_engine := mem_create_engine;
  Table_create := mem_Table_create;
  Table_drop := mem_Table_drop;
  to_sql := mem_to_sql;
  read_sql := mem_read_sql;
  read_sql_query := mem_read_sql_query
|}.
End Engine.

(** ** A strict dialect *)

(** An engine with the names and the limits of SQLite that stores a value
    only in a column of its own type, and takes no statement given as
    text. *)

(** [strip_prefix p s] is what follows [p] in [s]. *)
Fixpoint strip_prefix (p s : string) : option string :=
  match p, s with
  | EmptyString, _ => Some s
  | String a p', String b s' =>
      if Ascii.eqb a b then strip_prefix p' s' else None
  | String _ _, EmptyString => None
  end.

(** The URLs of SQLite: [sqlite://] and [sqlite:///:memory:] for a database
    in memory, [sqlite:///] and a path for a file. *)
Definition strict_resolve (db_loc : string) : Outcome (option string) :=
  let unknown :=
    Raise (ArgumentError
             ("Could not parse SQLAlchemy URL from string '" +:+ db_loc +:+ "'"))
  in
  match strip_prefix "sqlite://" db_loc with
  | Some "" => Ok None
  | Some rest =>
      match strip_prefix "/" rest with
      | Some "" | Some ":memory:" => Ok None
      | Some file => Ok (Some file)
      | None => unknown
      end
  | None => unknown
  end.

Definition quote_mark : string := String (Ascii.ascii_of_N 34) EmptyString.

(** A name made of small letters, digits and underscores that starts with a
    letter or an underscore is written as it is (the reserved words of SQL
    apart); any other is written in quotes. *)
Definition plain_char (first : bool) (a : Ascii.ascii) : bool :=
  let n := Ascii.N_of_ascii a in
  (((97 <=? n) && (n <=? 122)) || (n =? 95)
   || (negb first && (48 <=? n) && (n <=? 57)))%N.

Fixpoint plain_rest (s : string) : bool :=
  match s with
  | EmptyString => true
  | String a s' => plain_char false a && plain_rest s'
  end.

Definition strict_spelled (tname : string) : string :=
  match tname with
  | String a s' =>
      if plain_char true a && plain_rest s' then tname
      else quote_mark +:+ tname +:+ quote_mark
  | EmptyString => quote_mark +:+ quote_mark
  end.

(** The first name that occurs twice. *)
Fixpoint first_duplicate (seen names : list string) : option string :=
  match names with
  | [] => None
  | n :: names' =>
      if bool_decide (lower n ∈ seen) then Some n
      else first_duplicate (lower n :: seen) names'
  end.

Definition strict_create_error (tname : string) (cols : list Column)
  : option Exception :=
  if bool_decide (is_Some (strip_prefix "sqlite_" (lower tname)))
  then Some (OperationalError
               ("object name reserved for internal use: " +:+ tname))
  else
    match cols with
    | [] =>
        Some (OperationalError
                ("near " +:+ quote_mark +:+ ")" +:+ quote_mark
                 +:+ ": syntax error"))
    | _ :: _ =>
        if bool_decide (NoDup (map (fun c => lower (col_name c)) cols))
        then None
        else
          Some (OperationalError
                  ("duplicate column name: "
                   +:+ default "" (first_duplicate [] (map col_name cols))))
    end.

(** SQLite before 3.32 takes 999 variables in a statement. *)
Definition strict_statement_error (keys : list string) (rows : list Row)
  : option Exception :=
  if (999 <? length rows * length (remove_dups keys))%nat
  then Some (OperationalError "too many SQL variables")
  else None.

(** A value of the type of the column is stored as it is, and the negative
    zero as zero; an integer beyond 64 bits is refused by the driver, and a
    value of another type by the engine. *)
Definition strict_coerce (ty : sqltypes.t) (v : Value) : Outcome Value :=
  match v with
  | NULL => Ok NULL
  | _ =>
      if cell_typed ty v then Ok v
      else
        match ty, v with
        | _, IntV z =>
            if int64 z
            then Raise (DataError "integer in a column of another type")
            else Raise (OverflowError
                          "Python int too large to convert to SQLite INTEGER")
        | sqltypes.Float, FloatV bits =>
            if (bits =? 2 ^ 63)%Z then Ok (FloatV 0)
            else Raise (DataError "no double")
        | _, _ => Raise (DataError "value in a column of another type")
        end
  end.

Definition strict_read_frame (cols : list Column) (rows : list Row)
  : Outcome DataFrame :=
  if forallb (row_reads cols) rows
  then Ok {| df_columns := map (fun c => (col_name c, col_type c)) cols;
             df_rows := rows |}
  else Raise (ValueError "value of another type than its column").

Definition strict_read_query (sql : string) (chunksize : Z) (db : Database)
  : Outcome Generator * Database :=
  (Raise (OperationalError "syntax error"), db).

#[program] Definition strict : Dialect := {|
  resolve := strict_resolve;
  spelled := strict_spelled;
  create_error := strict_create_error;
  statement_error := strict_statement_error;
  coerce := strict_coerce;
  finds := fun _ _ => true;
  read_frame := strict_read_frame;
  read_query := strict_read_query
|}.
Next Obligation.
  match goal with
  | Hnone : strict_create_error _ _ = None |- _ =>
      unfold strict_create_error in Hnone; repeat case_match; try done
  end.
  split; [done | by eapply bool_decide_eq_true].
Qed.
Next Obligation.
  unfold strict_coerce. destruct v; [done | by case_match ..].
Qed.
Next Obligation. unfold strict_read_frame. by case_match. Qed.

(** ** Vocabulary of the statements *)



(** The table of a name was created under that very name. *)
Definition created_as (w : World) (engine : Engine) (tname : string)
  : Prop :=
  fst <$> entry_at w engine tname = Some tname.

(** ** A database for the examples *)

Definition genie_db : string := "sqlite:///genie.db".

Definition genie_engine : Engine :=
  {| url := genie_db; database := inl "genie.db" |}.

(** The repository [SqlRepository(genie_db, CTD_TABLE_NAME, CTD_DAO_TABLE)]
    and the backend its construction leaves at a fresh location, on the
    strict dialect. *)
Definition ctd_repo : SqlRepository.t := {|
  SqlRepository._tablename := CTD_TABLE_NAME;
  SqlRepository._table := CTD_DAO_TABLE;
  SqlRepository._engine := genie_engine
|}.

Definition ctd_world : World :=
  snd (@SqlRepository.__init__ World (@mem_driver strict)
         genie_db CTD_TABLE_NAME CTD_DAO_TABLE ∅).

(** Two associations with every column of the schema. *)
Definition two_associations : DataFrame := {|
  df_columns := [
    ("digest", sqltypes.String); ("genesymbol", sqltypes.String);
    ("geneid", sqltypes.Integer); ("diseasename", sqltypes.String);
    ("diseaseid", sqltypes.String); ("pmids", sqltypes.String) ];
  df_rows := [
    [StrV "d1"; StrV "BRCA1"; IntV 1; NULL; StrV "D1"; StrV "100"];
    [StrV "d2"; NULL; IntV 2; StrV "asthma"; StrV "D2"; StrV "200"] ]
|}.


(** A record set of the classifier, which has columns the table of
    associations lacks. *)
Definition one_score : DataFrame := {|
  df_columns := [
    ("digest", sqltypes.String); ("pub_score", sqltypes.Float);
    ("ct_score", sqltypes.Float) ];
  df_rows := [ [StrV "d1"; FloatV 4607182418800017408; FloatV 0] ]
|}.

(** A repository whose table name is not the name of its schema:
    [SqlRepository(genie_db, "associations", CTD_DAO_TABLE)]. *)
Definition misnamed_repo : SqlRepository.t := {|
  SqlRepository._tablename := "associations";
  SqlRepository._table := CTD_DAO_TABLE;
  SqlRepository._engine := genie_engine
|}.

(** The backend after [ctd_repo.save(two_associations)], once and twice. *)
Definition saved_once : World :=
  backend (snd (@SqlRepository.save World (@mem_driver strict)
                  two_associations
                  {| self := ctd_repo; backend := ctd_world |})).

Definition saved_twice : World :=
  backend (snd (@SqlRepository.save World (@mem_driver strict)
                  two_associations
                  {| self := ctd_repo; backend := saved_once |})).

(** The backend after [misnamed_repo] is constructed at a fresh location and
    saves [two_associations]. *)
Definition misnamed_world : World :=
  backend
    (snd (@SqlRepository.save World (@mem_driver strict) two_associations
            {| self := misnamed_repo;
               backend :=
                 snd (@SqlRepository.__init__ World (@mem_driver strict)
                        genie_db "associations" CTD_DAO_TABLE ∅) |})).

(** A record set of the classifier without rows. *)
Definition no_score : DataFrame := {|
  df_columns := df_columns one_score;
  df_rows := []
|}.


(** A schema of the name of the associations that declares no column. *)
Definition columnless : Table := {| name := CTD_TABLE_NAME; columns := [] |}.

(** A database in memory. *)
Definition memory_db : string := "sqlite://".

(** * Properties *)

(** ** What the repositories do with the library, for every driver *)

Section Adapter.
Context {W : Type} `{Driver W}.

(** The three methods of [SqlRepository], run on a state. *)
Lemma sql_save_unfold (payload : DataFrame) (s : Sys SqlRepository.t W) :
  SqlRepository.save payload s =
  match to_sql payload (SqlRepository._tablename (self s))
          (SqlRepository._engine (self s)) (backend s) with
  | (Ok a, w') => (Ok a, {| self := self s; backend := w' |})
  | (Raise e, w') => (Raise (DaoError e), {| self := self s; backend := w' |})
  end.
Proof.
  unfold SqlRepository.save, bind, getattr, try_except, call, raise.
  by destruct (to_sql _ _ _ _) as [[a | e] w'].
Qed.

Lemma sql_delete_all_unfold (s : Sys SqlRepository.t W) :
  SqlRepository.delete_all s =
  match Table_drop (SqlRepository._table (self s))
          (SqlRepository._engine (self s)) (backend s) with
  | (Ok _, w1) =>
      match Table_create (SqlRepository._table (self s))
              (SqlRepository._engine (self s)) w1 with
      | (o, w2) => (o, {| self := self s; backend := w2 |})
      end
  | (Raise e, w1) => (Raise e, {| self := self s; backend := w1 |})
  end.
Proof.
  unfold SqlRepository.delete_all, bind, getattr, call.
  by destruct (Table_drop _ _ _) as [[a | e] w1].
Qed.

Lemma sql_query_unfold (q : option string) (chunksize : Z)
  (s : Sys SqlRepository.t W) :
  SqlRepository.query q chunksize s =
  (fst (read_call (self s) q chunksize (backend s)),
   {| self := self s;
      backend := snd (read_call (self s) q chunksize (backend s)) |}).
Proof.
  unfold SqlRepository.query, read_call, bind, getattr, call.
  destruct q as [text |]; simpl;
    [by destruct (read_sql_query _ _ _ _) | by destruct (read_sql _ _ _ _)].
Qed.

(** No method assigns to a slot of the repository it is called on. *)
Lemma sql_step_self (c : Call) (s : Sys SqlRepository.t W) :
  self (step c s) = self s.
Proof.
  destruct c as [payload | | q chunksize]; simpl.
  - rewrite sql_save_unfold. by destruct (to_sql _ _ _ _) as [[a | e] w'].
  - rewrite sql_delete_all_unfold.
    destruct (Table_drop _ _ _) as [[a | e] w1]; [| done].
    by destruct (Table_create _ _ _).
  - by rewrite sql_query_unfold.
Qed.

Lemma sql_run_calls_self (cs : list Call) (s : Sys SqlRepository.t W) :
  self (run_calls cs s) = self s.
Proof.
  revert s. induction cs as [| c cs IH]; intros s; [done |].
  change (run_calls (c :: cs) s) with (run_calls cs (step c s)).
  by rewrite IH, sql_step_self.
Qed.

Lemma gbq_step (c : Call) (s : Sys GbqRepository.t W) : step c s = s.
Proof. by destruct c. Qed.

Lemma gbq_run_calls (cs : list Call) (s : Sys GbqRepository.t W) :
  run_calls cs s = s.
Proof.
  induction cs as [| c cs IH]; [done |].
  change (run_calls (c :: cs) s) with (run_calls cs (step c s)).
  by rewrite gbq_step.
Qed.

Lemma sql_init_slots (db_loc tn : string) (table : Table) (w w' : W)
  (r : SqlRepository.t) :
  SqlRepository.__init__ db_loc tn table w = (Ok r, w') ->
  SqlRepository._tablename r = tn /\ SqlRepository._table r = table.
Proof.
  unfold SqlRepository.__init__, bind, ret.
  destruct (create_engine db_loc w) as [[engine | e] w1]; [| done].
  destruct (Table_create table engine w1) as [[[] | e] w2]; [| done].
  intros [= <- _]. done.
Qed.

(** C4: whenever the write of [SqlRepository.save] fails in the backend,
    whatever the failure, [save] raises a [DaoError] that wraps the exception
    of the backend; [save] raises nothing else, and returns when the write
    does. *)
Theorem save_wraps_backend_failure (payload : DataFrame)
  (s : Sys SqlRepository.t W) :
  let write :=
    to_sql payload (SqlRepository._tablename (self s))
      (SqlRepository._engine (self s)) (backend s) in
  (forall e, fst write = Raise e ->
     fst (SqlRepository.save payload s) = Raise (DaoError e))
  /\ (forall e', fst (SqlRepository.save payload s) = Raise e' ->
        exists e, e' = DaoError e /\ fst write = Raise e)
  /\ (forall a, fst write = Ok a -> fst (SqlRepository.save payload s) = Ok a)
  /\ backend (snd (SqlRepository.save payload s)) = snd write.
Proof.
  simpl. rewrite sql_save_unfold.
  destruct (to_sql _ _ _ _) as [[a | e] w']; simpl;
    repeat split; intros; simplify_eq/=; eauto.
Qed.

(** C7: [SqlRepository.delete_all] raises the very exception its drop or its
    create raised in the backend, and [SqlRepository.query] the very exception
    its read raised; a generator the read returned is handed to the caller as
    it is, so that a failure while a chunk is produced is the library's own.
    Neither wraps anything in a [DaoError]; [save] does. *)
Theorem delete_all_and_query_raise_raw (s : Sys SqlRepository.t W) :
  let table := SqlRepository._table (self s) in
  let engine := SqlRepository._engine (self s) in
  let dropped := Table_drop table engine (backend s) in
  let created := Table_create table engine (snd dropped) in
  (forall e, fst dropped = Raise e ->
     SqlRepository.delete_all s =
     (Raise e, {| self := self s; backend := snd dropped |}))
  /\ (forall a e, fst dropped = Ok a -> fst created = Raise e ->
        SqlRepository.delete_all s =
        (Raise e, {| self := self s; backend := snd created |}))
  /\ (forall e, fst (SqlRepository.delete_all s) = Raise e ->
        fst dropped = Raise e
        \/ (exists a, fst dropped = Ok a) /\ fst created = Raise e)
  /\ (forall q chunksize,
        fst (SqlRepository.query q chunksize s) =
        fst (read_call (self s) q chunksize (backend s)))
  /\ (forall payload e,
        fst (to_sql payload (SqlRepository._tablename (self s)) engine
               (backend s)) = Raise e ->
        fst (SqlRepository.save payload s) = Raise (DaoError e)).
Proof.
  simpl.
  assert (Hsave : forall payload e,
    fst (to_sql payload (SqlRepository._tablename (self s))
           (SqlRepository._engine (self s)) (backend s)) = Raise e ->
    fst (SqlRepository.save payload s) = Raise (DaoError e)).
  { intros payload e He. rewrite sql_save_unfold.
    destruct (to_sql _ _ _ _) as [[? | ?] ?]; simpl in *; congruence. }
  rewrite sql_delete_all_unfold.
  destruct (Table_drop _ _ _) as [[a | e] w1]; simpl;
    [destruct (Table_create _ _ w1) as [[a' | e'] w2]; simpl |];
    repeat split; intros; simplify_eq/=; eauto;
    try (by rewrite sql_query_unfold).
Qed.

(** C5: on [GbqRepository], [save], [delete_all] and [query] raise
    [NotImplementedError] on every invocation, and leave the repository and
    the backend as they were. *)
Theorem gbq_operations_not_implemented (s : Sys GbqRepository.t W)
  (payload : DataFrame) (q : option string) (chunksize : Z) :
  GbqRepository.save payload s = (Raise NotImplementedError, s)
  /\ GbqRepository.delete_all s = (Raise NotImplementedError, s)
  /\ GbqRepository.query q chunksize s = (Raise NotImplementedError, s).
Proof. by unfold GbqRepository.save, GbqRepository.delete_all,
  GbqRepository.query, raise. Qed.

(** C9, as the code has it: constructing a [GbqRepository] stores the table
    name, the schema and the project; it reads no credentials (the slot stays
    unset, whatever the path), never raises, and leaves the backend as it
    was. *)
Theorem gbq_init_binds_slots_only (db_loc tn : string) (table : Table)
  (credentials_path : string) (w : W) :
  GbqRepository.__init__ db_loc tn table credentials_path w =
  (Ok {| GbqRepository._tablename := tn;
         GbqRepository._table := table;
         GbqRepository._proj := db_loc;
         GbqRepository._credentials := None |},
   w).
Proof. reflexivity. Qed.

(** C10: the property [tablename] of a repository, relational or warehouse,
    returns the name given to its constructor, and after any sequence of
    calls of [save], [delete_all] and [query], returning or raising, the
    repository still holds that name and the schema it was given. *)
Theorem tablename_and_schema_fixed (db_loc tn : string) (table : Table)
  (credentials_path : string) (cs : list Call) (w w' : W) :
  (forall r : SqlRepository.t,
     SqlRepository.__init__ db_loc tn table w = (Ok r, w') ->
     let s := run_calls cs {| self := r; backend := w' |} in
     fst (tablename s) = Ok tn
     /\ SqlRepository._tablename (self s) = tn
     /\ SqlRepository._table (self s) = table)
  /\ (forall r : GbqRepository.t,
        GbqRepository.__init__ db_loc tn table credentials_path w
        = (Ok r, w') ->
        let s := run_calls cs {| self := r; backend := w' |} in
        fst (tablename s) = Ok tn
        /\ GbqRepository._tablename (self s) = tn
        /\ GbqRepository._table (self s) = table).
Proof.
  split; intros r Hinit s.
  - apply sql_init_slots in Hinit as [Htn Htable].
    unfold tablename, getattr. subst s. simpl.
    rewrite sql_run_calls_self. simpl. by rewrite Htn, Htable.
  - unfold GbqRepository.__init__, ret in Hinit. injection Hinit as <- _.
    unfold tablename, getattr. subst s. simpl.
    by rewrite gbq_run_calls.
Qed.
End Adapter.
(** ** The chunks of a result *)




Section Iterator.
Context `{Dialect}.
Variable cols : list Column.
Variable chunksize : Z.

Lemma query_iterator_clause (convert : list Row -> Outcome DataFrame)
  (empty : DataFrame) (cursor : list Row) (b : bool)
  (p : Outcome (list Row * list Row)) (e : fetchmany chunksize cursor = p) :
  query_iterator_unfold_clause_1 convert empty chunksize cursor (exist _ p e) b
  = match p with
    | Raise err => GenRaise err
    | Ok ([], _) => if b then GenStop else GenYield empty GenStop
    | Ok (r :: data, rest) =>
        match convert (r :: data) with
        | Raise err => GenRaise err
        | Ok frame =>
            GenYield frame (query_iterator convert empty chunksize rest true)
        end
    end.
Proof.
  destruct p as [[[| r data] rest] | err]; simp query_iterator; try done.
  destruct (convert (r :: data)); by simp query_iterator.
Qed.

(** One turn of the loop. *)
Lemma query_iterator_turn (convert : list Row -> Outcome DataFrame)
  (empty : DataFrame) (cursor : list Row) (b : bool) :
  query_iterator convert empty chunksize cursor b
  = match fetchmany chunksize cursor with
    | Raise err => GenRaise err
    | Ok ([], _) => if b then GenStop else GenYield empty GenStop
    | Ok (r :: data, rest) =>
        match convert (r :: data) with
        | Raise err => GenRaise err
        | Ok frame =>
            GenYield frame (query_iterator convert empty chunksize rest true)
        end
    end.
Proof.
  rewrite query_iterator_equation_1. unfold inspect.
  by rewrite query_iterator_clause.
Qed.

(** From here on, the chunk size is one the driver takes, and the rows are
    rows pandas reads back as they are stored. *)
Hypothesis chunksize_fits : 0 < chunksize < 2 ^ 31.

Local Abbreviation frame data :=
  {| df_columns := map (fun c => (col_name c, col_type c)) cols;
     df_rows := data |}.
Local Abbreviation iterate :=
  (query_iterator (read_frame cols) (empty_frame cols) chunksize).
Local Abbreviation reads rows := (forallb (row_reads cols) rows = true).
Local Abbreviation size := (Z.to_nat chunksize).

Lemma fetchmany_take (cursor : list Row) :
  fetchmany chunksize cursor = Ok (take size cursor, drop size cursor).
Proof.
  unfold fetchmany.
  destruct (_ || _) eqn:Hrange; [lia |].
  destruct (chunksize <=? 0)%Z eqn:Hsize; [lia | done].
Qed.

Lemma reads_take (n : nat) (cursor : list Row) :
  reads cursor -> reads (take n cursor).
Proof.
  rewrite !forallb_forall. intros Hall row Hrow. apply Hall.
  apply list_elem_of_In. apply list_elem_of_In in Hrow.
  by apply (subseteq_take n cursor).
Qed.

Lemma reads_drop (n : nat) (cursor : list Row) :
  reads cursor -> reads (drop n cursor).
Proof.
  rewrite !forallb_forall. intros Hall row Hrow. apply Hall.
  apply list_elem_of_In. apply list_elem_of_In in Hrow.
  by apply (subseteq_drop n cursor).
Qed.

Lemma iterate_turn (cursor : list Row) (b : bool) :
  reads cursor ->
  iterate cursor b
  = match take size cursor with
    | [] => if b then GenStop else GenYield (empty_frame cols) GenStop
    | r :: data =>
        GenYield (frame (r :: data)) (iterate (drop size cursor) true)
    end.
Proof.
  intros Hreads. rewrite query_iterator_turn, fetchmany_take.
  destruct (take size cursor) as [| r data] eqn:Htake; [done |].
  rewrite read_frame_typed; [done | done |].
  rewrite <- Htake. by apply reads_take.
Qed.

(** Induction on the turns of the loop. *)
Lemma iterate_ind (P : list Row -> Generator -> Prop) :
  (forall cursor, take size cursor = [] -> P cursor GenStop) ->
  (forall cursor r data,
     take size cursor = r :: data ->
     P (drop size cursor) (iterate (drop size cursor) true) ->
     P cursor
       (GenYield (frame (r :: data)) (iterate (drop size cursor) true))) ->
  forall cursor, reads cursor -> P cursor (iterate cursor true).
Proof.
  intros Hstop Hyield cursor.
  remember (length cursor) as m eqn:Hm. revert cursor Hm.
  induction m as [m IH] using lt_wf_ind. intros cursor -> Hreads.
  rewrite iterate_turn by done.
  destruct (take _ cursor) as [| r data] eqn:Htake.
  - by apply Hstop.
  - apply Hyield; [done |].
    apply (IH (length (drop size cursor))); [| done | by apply reads_drop].
    rewrite length_drop.
    destruct size eqn:Hsize; [lia |].
    destruct cursor; [done |]. simpl. lia.
Qed.

(** The generator of a result ends without an exception. *)
Lemma iterate_no_error (cursor : list Row) :
  reads cursor -> gen_error (iterate cursor true) = None.
Proof.
  intros Hreads.
  by apply (iterate_ind (fun _ g => gen_error g = None)).
Qed.


Lemma take_chunk_nil (cursor : list Row) :
  take size cursor = [] -> cursor = [].
Proof. destruct size eqn:Hn; [lia |]. by destruct cursor. Qed.

(** The chunks, one after the other, are the rows of the result in their
    order. *)
Lemma iterate_rows (cursor : list Row) :
  reads cursor -> gen_rows (iterate cursor true) = cursor.
Proof.
  intros Hreads.
  apply (iterate_ind (fun cursor g => gen_rows g = cursor)); [| | done];
    clear cursor Hreads.
  - intros cursor Htake. by rewrite (take_chunk_nil _ Htake).
  - intros cursor r data Htake IH. unfold gen_rows in *. simpl.
    rewrite IH. rewrite <- (take_drop size cursor) at 2.
    by rewrite Htake.
Qed.

Lemma iterate_nil (b : bool) :
  iterate [] b = if b then GenStop else GenYield (empty_frame cols) GenStop.
Proof. rewrite iterate_turn by done. by rewrite take_nil. Qed.

(** A result with rows is read alike whether or not rows were read
    before. *)
Lemma iterate_first (cursor : list Row) :
  reads cursor -> cursor <> [] -> iterate cursor false = iterate cursor true.
Proof.
  intros Hreads Hrows.
  rewrite (iterate_turn cursor false), (iterate_turn cursor true) by done.
  destruct (take size cursor) eqn:Htake; [| done].
  by apply take_chunk_nil in Htake.
Qed.


End Iterator.

(** ** The tables of a database, one by one *)

Lemma database_at_put_database (w : World) (engine : Engine) (db : Database) :
  database_at (put_database w engine db) engine = db.
Proof. unfold database_at, put_database. simpl. by rewrite lookup_insert_eq. Qed.

Lemma database_at_put_database_ne (w : World) (engine engine' : Engine)
  (db : Database) :
  database engine' <> database engine ->
  database_at (put_database w engine db) engine' = database_at w engine'.
Proof.
  intros Hne. unfold database_at, put_database. simpl.
  by rewrite lookup_insert_ne.
Qed.

Lemma put_database_put_database (w : World) (engine : Engine)
  (db1 db2 : Database) :
  put_database (put_database w engine db1) engine db2
  = put_database w engine db2.
Proof. unfold put_database. simpl. by rewrite insert_insert_eq. Qed.

Lemma entry_at_set_table (w : World) (engine : Engine)
  (tname declared : string) (st : StoredTable) :
  holds st = true ->
  entry_at (set_table w engine tname declared st) engine tname
  = Some (declared, st).
Proof.
  intros Hst. unfold entry_at, set_table.
  by rewrite database_at_put_database, lookup_insert_eq, Hst.
Qed.

Lemma table_at_set_table (w : World) (engine : Engine)
  (tname declared : string) (st : StoredTable) :
  holds st = true ->
  table_at (set_table w engine tname declared st) engine tname = Some st.
Proof. intros Hst. unfold table_at. by rewrite entry_at_set_table. Qed.

Lemma entry_at_put_database_ne (w : World) (engine engine' : Engine)
  (tname tname' : string) (db : Database) :
  (database engine', lower tname') <> (database engine, lower tname) ->
  db !! lower tname' = database_at w engine !! lower tname' ->
  entry_at (put_database w engine db) engine' tname'
  = entry_at w engine' tname'.
Proof.
  intros Hne Hdb. unfold entry_at.
  destruct (decide (database engine' = database engine)) as [Heq | Hloc].
  - unfold database_at at 1, put_database. simpl.
    rewrite Heq, lookup_insert_eq. simpl. rewrite Hdb.
    unfold database_at. by rewrite Heq.
  - by rewrite database_at_put_database_ne.
Qed.

Lemma entry_at_set_table_ne (w : World) (engine engine' : Engine)
  (tname tname' declared : string) (st : StoredTable) :
  (database engine', lower tname') <> (database engine, lower tname) ->
  entry_at (set_table w engine tname declared st) engine' tname'
  = entry_at w engine' tname'.
Proof.
  intros Hne. unfold set_table.
  destruct (decide (lower tname' = lower tname)) as [Heq | Hname].
  - unfold entry_at. rewrite database_at_put_database_ne; [done |].
    congruence.
  - apply (entry_at_put_database_ne _ _ _ tname); [done |].
    by rewrite lookup_insert_ne.
Qed.

Lemma table_at_set_table_ne (w : World) (engine engine' : Engine)
  (tname tname' declared : string) (st : StoredTable) :
  (database engine', lower tname') <> (database engine, lower tname) ->
  table_at (set_table w engine tname declared st) engine' tname'
  = table_at w engine' tname'.
Proof. intros Hne. unfold table_at. by rewrite entry_at_set_table_ne. Qed.

Lemma entry_at_drop_table (w : World) (engine : Engine) (tname : string) :
  entry_at (drop_table w engine tname) engine tname = None.
Proof.
  unfold entry_at, drop_table.
  by rewrite database_at_put_database, lookup_delete_eq.
Qed.

Lemma entry_at_drop_table_ne (w : World) (engine engine' : Engine)
  (tname tname' : string) :
  (database engine', lower tname') <> (database engine, lower tname) ->
  entry_at (drop_table w engine tname) engine' tname'
  = entry_at w engine' tname'.
Proof.
  intros Hne. unfold drop_table.
  destruct (decide (lower tname' = lower tname)) as [Heq | Hname].
  - unfold entry_at. rewrite database_at_put_database_ne; [done |].
    congruence.
  - apply (entry_at_put_database_ne _ _ _ tname); [done |].
    by rewrite lookup_delete_ne.
Qed.

Lemma table_at_drop_table_ne (w : World) (engine engine' : Engine)
  (tname tname' : string) :
  (database engine', lower tname') <> (database engine, lower tname) ->
  table_at (drop_table w engine tname) engine' tname'
  = table_at w engine' tname'.
Proof. intros Hne. unfold table_at. by rewrite entry_at_drop_table_ne. Qed.

Lemma set_table_set_table (w : World) (engine : Engine)
  (tname declared1 declared2 : string) (st1 st2 : StoredTable) :
  set_table (set_table w engine tname declared1 st1) engine tname declared2 st2
  = set_table w engine tname declared2 st2.
Proof.
  unfold set_table.
  by rewrite database_at_put_database, put_database_put_database,
    insert_insert_eq.
Qed.

Lemma set_table_drop_table (w : World) (engine : Engine)
  (tname declared : string) (st : StoredTable) :
  set_table (drop_table w engine tname) engine tname declared st
  = set_table w engine tname declared st.
Proof.
  unfold set_table, drop_table.
  by rewrite database_at_put_database, put_database_put_database,
    insert_delete_eq.
Qed.

Lemma drop_table_set_table (w : World) (engine : Engine)
  (tname declared : string) (st : StoredTable) :
  drop_table (set_table w engine tname declared st) engine tname
  = drop_table w engine tname.
Proof.
  unfold set_table, drop_table.
  by rewrite database_at_put_database, put_database_put_database,
    delete_insert_eq.
Qed.

(** A name stands for a table whatever the case of its letters. *)
Lemma entry_at_lower (w : World) (engine : Engine) (tname tname' : string) :
  lower tname = lower tname' ->
  entry_at w engine tname = entry_at w engine tname'.
Proof. intros Heq. unfold entry_at. by rewrite Heq. Qed.

Lemma table_at_lower (w : World) (engine : Engine) (tname tname' : string) :
  lower tname = lower tname' ->
  table_at w engine tname = table_at w engine tname'.
Proof. intros Heq. unfold table_at. by rewrite (entry_at_lower _ _ _ tname'). Qed.

Lemma set_table_lower (w : World) (engine : Engine)
  (tname tname' declared : string) (st : StoredTable) :
  lower tname = lower tname' ->
  set_table w engine tname declared st = set_table w engine tname' declared st.
Proof. intros Heq. unfold set_table. by rewrite Heq. Qed.

Lemma table_at_entry_at (w : World) (engine : Engine) (tname : string)
  (st : StoredTable) :
  table_at w engine tname = Some st ->
  exists declared,
    entry_at w engine tname = Some (declared, st) /\ holds st = true.
Proof.
  unfold table_at, entry_at.
  destruct (database_at w engine !! lower tname) as [[declared st'] |];
    [| done].
  destruct (holds st') eqn:Hst; [| done].
  intros [= <-]. eauto.
Qed.

Lemma table_at_None (w : World) (engine : Engine) (tname : string) :
  table_at w engine tname = None -> entry_at w engine tname = None.
Proof. unfold table_at. by destruct (entry_at w engine tname). Qed.

(** A table that is written to stays under the name it was created
    under. *)
Lemma created_as_set_table (w : World) (engine : Engine) (tname : string)
  (st : StoredTable) :
  holds st = true ->
  created_as (set_table w engine tname tname st) engine tname.
Proof. intros Hst. unfold created_as. by rewrite entry_at_set_table. Qed.



Lemma holds_intro (cols : list Column) (rows : list Row) :
  cols <> [] -> NoDup (map (fun c => lower (col_name c)) cols) ->
  holds {| st_columns := cols; st_rows := rows |} = true.
Proof.
  intros Hsome Hnodup. unfold holds. simpl.
  destruct cols; [done |]. by apply bool_decide_eq_true.
Qed.

(** ** Writing rows to the reference engine *)

Lemma traverse_Forall2 {A B} (f : A -> Outcome B) (l : list A) (bs : list B) :
  Forall2 (fun a b => f a = Ok b) l bs -> traverse f l = Ok bs.
Proof.
  induction 1 as [| a b l bs Hab _ IH]; simpl; [done |].
  by rewrite Hab, IH.
Qed.


Lemma zip_get_absent (keys : list string) (row : Row) (c : string) :
  c ∉ keys -> zip_get keys row c = None.
Proof.
  revert row. induction keys as [| k keys IH]; intros [| v row] Hc; try done.
  simpl. apply not_elem_of_cons in Hc as [Hne Hc]. rewrite (IH _ Hc).
  destruct (String.eqb_spec k c); congruence.
Qed.

Lemma zip_get_lookup (keys : list string) (row : Row) (i : nat) (k : string)
  (v : Value) :
  NoDup keys -> keys !! i = Some k -> row !! i = Some v ->
  zip_get keys row k = Some v.
Proof.
  intros Hnodup. revert row i.
  induction Hnodup as [| k0 keys Hk0 _ IH]; intros [| v0 row] [| i] Hk Hv;
    try done; simpl in *.
  - injection Hk as ->. injection Hv as ->.
    rewrite zip_get_absent by done. by rewrite String.eqb_refl.
  - by rewrite (IH row i).
Qed.

(** Names that differ in lower case differ. *)
Lemma NoDup_lower (names : list string) :
  NoDup (map lower names) -> NoDup names.
Proof. apply NoDup_fmap_1. Qed.

Lemma NoDup_lower_names (cols : list Column) :
  NoDup (map (fun c => lower (col_name c)) cols) ->
  NoDup (map lower (map col_name cols)).
Proof. by rewrite map_map. Qed.

(** Among names that differ in lower case, a name stands for itself. *)
Lemma find_lower (names : list string) (k : string) :
  NoDup (map lower names) -> k ∈ names ->
  List.find (fun k' => String.eqb (lower k') (lower k)) names = Some k.
Proof.
  induction names as [| k0 names IH]; intros Hnodup Hk;
    [by apply not_elem_of_nil in Hk |].
  simpl in *. apply NoDup_cons in Hnodup as [Hk0 Hnodup].
  apply elem_of_cons in Hk as [-> | Hk].
  - by rewrite String.eqb_refl.
  - destruct (String.eqb_spec (lower k0) (lower k)) as [Heq | _];
      [| by apply IH].
    destruct Hk0. rewrite Heq. by apply list_elem_of_fmap_2.
Qed.

Lemma named_own (cols : list Column) (c : Column) :
  NoDup (map (fun c => lower (col_name c)) cols) -> c ∈ cols ->
  named (map col_name cols) c = Some (col_name c).
Proof.
  intros Hnodup Hc. apply find_lower.
  - by apply NoDup_lower_names.
  - by apply list_elem_of_fmap_2.
Qed.


Lemma unknown_column_None (cols : list Column) (keys : list string) :
  map lower keys ⊆ map (fun c => lower (col_name c)) cols ->
  unknown_column cols keys = None.
Proof.
  intros Hsub. unfold unknown_column.
  induction keys as [| k keys IH]; [done |]. simpl.
  assert (existsb (fun c => String.eqb (lower (col_name c)) (lower k)) cols
          = true) as ->.
  { assert (lower k ∈ map (fun c => lower (col_name c)) cols) as Hk
      by (apply Hsub; left).
    apply list_elem_of_In, in_map_iff in Hk as (c & Heq & Hc).
    apply existsb_exists. exists c. split; [done |]. by apply String.eqb_eq. }
  simpl. apply IH. intros x Hx. apply Hsub. by right.
Qed.

Lemma unknown_column_own (cols : list Column) :
  unknown_column cols (map col_name cols) = None.
Proof. apply unknown_column_None. by rewrite map_map. Qed.


Lemma row_conforms_Forall2 (cols : list Column) (row : Row) :
  row_conforms cols row = true ->
  Forall2 (fun c v => cell_conforms c v = true) cols row.
Proof.
  revert row. induction cols as [| c cols IH]; intros [| v row] Hrow;
    try done; simpl in Hrow.
  apply andb_true_iff in Hrow as [Hc Hrow]. constructor; auto.
Qed.

(** A row that fits nullable columns, missing values in columns of integers
    apart, is read back as it is. *)
Lemma row_conforms_reads (cols : list Column) (row : Row) :
  row_reads cols row = true ->
  Forall (fun c => nullable c = true) cols ->
  row_conforms cols row = true.
Proof.
  revert row. induction cols as [| c cols IH]; intros [| v row] Hrow Hnull;
    try done; simpl in *.
  apply andb_true_iff in Hrow as [Hc Hrow].
  apply Forall_cons in Hnull as [Hc' Hnull].
  rewrite IH, andb_true_r by done.
  unfold cell_reads in Hc. unfold cell_conforms.
  destruct v; try done; by destruct (col_type c).
Qed.

Section Reference.
Context `{Dialect}.

Lemma store_cell_conforming (declared : string) (keys : list string)
  (row : Row) (c : Column) (v : Value) :
  named keys c = Some (col_name c) ->
  zip_get keys row (col_name c) = Some v -> cell_conforms c v = true ->
  store_cell declared keys row c = Ok v.
Proof.
  intros Hnamed Hget Hcell. unfold store_cell. rewrite Hnamed, Hget. simpl.
  unfold cell_conforms in Hcell.
  destruct v; [by rewrite coerce_NULL, Hcell | by rewrite coerce_typed ..].
Qed.

Lemma store_row_conforming (declared : string) (cols : list Column)
  (row : Row) :
  NoDup (map (fun c => lower (col_name c)) cols) ->
  row_conforms cols row = true ->
  traverse (store_cell declared (map col_name cols) row) cols = Ok row.
Proof.
  intros Hnodup Hrow. apply traverse_Forall2.
  apply row_conforms_Forall2 in Hrow.
  apply Forall2_same_length_lookup. split; [by eapply Forall2_length |].
  intros i c v Hc Hv. apply store_cell_conforming.
  - apply named_own; [done |]. by eapply list_elem_of_lookup_2.
  - apply (zip_get_lookup _ _ i); [| | done].
    + by apply NoDup_lower, NoDup_lower_names.
    + by rewrite list_lookup_fmap, Hc.
  - exact (Forall2_lookup_lr (fun c v => cell_conforms c v = true)
             cols row i c v Hrow Hc Hv).
Qed.

Lemma insert_multi_conforming (tname declared : string)
  (cols : list Column) (rows : list Row) :
  NoDup (map (fun c => lower (col_name c)) cols) ->
  statement_error (map col_name cols) rows = None ->
  forallb (row_conforms cols) rows = true ->
  insert_multi tname declared cols (map col_name cols) rows = Ok rows.
Proof.
  intros Hnodup Hsize Hrows. unfold insert_multi.
  rewrite Hsize, unknown_column_own.
  apply traverse_Forall2, Forall2_same_length_lookup. split; [done |].
  intros i row row' Hrow Hrow'. assert (row' = row) as -> by congruence.
  apply store_row_conforming; [done |].
  rewrite forallb_forall in Hrows. apply Hrows.
  by eapply list_elem_of_In, list_elem_of_lookup_2.
Qed.



End Reference.


(** ** The relational repository on the reference engine *)

Section Relational.
Context `{Dialect}.
Implicit Types (r : SqlRepository.t) (w : World) (st : StoredTable).

(** [to_sql] on a table that exists. *)
Lemma mem_to_sql_present (df : DataFrame) (tname declared : string)
  (engine : Engine) w st :
  entry_at w engine tname = Some (declared, st) ->
  mem_to_sql df tname engine w = insert_frame df tname declared engine st w.
Proof. unfold mem_to_sql. by intros ->. Qed.

(** [to_sql] when there is no table of the name. *)
Lemma mem_to_sql_absent (df : DataFrame) (tname : string) (engine : Engine)
  w :
  table_at w engine tname = None ->
  mem_to_sql df tname engine w =
  match create_error tname (st_columns (frame_table df)) with
  | Some e => (Raise e, w)
  | None =>
      insert_frame df tname tname engine (frame_table df)
        (set_table w engine tname tname (frame_table df))
  end.
Proof. intros Hnone%table_at_None. unfold mem_to_sql. by rewrite Hnone. Qed.




(** Reading the table of the repository. *)
Lemma query_table r w st (chunksize : Z) :
  table_at w (SqlRepository._engine r) (SqlRepository._tablename r) = Some st ->
  created_as w (SqlRepository._engine r) (SqlRepository._tablename r) ->
  SqlRepository.query None chunksize {| self := r; backend := w |}
  = (Ok (query_iterator (read_frame (st_columns st))
           (empty_frame (st_columns st)) chunksize (st_rows st) false),
     {| self := r; backend := w |}).
Proof.
  unfold table_at, created_as. intros Hst Hname.
  rewrite sql_query_unfold. simpl. unfold mem_read_sql.
  destruct (entry_at w _ _) as [[declared st'] |]; [| done].
  simpl in *. injection Hst as ->. injection Hname as ->.
  by rewrite finds_own.
Qed.

(** The generator of a table whose rows pandas reads back as they are. *)
Lemma query_iterator_reads (cols : list Column) (chunksize : Z)
  (rows : list Row) :
  0 < chunksize < 2 ^ 31 ->
  forallb (row_reads cols) rows = true ->
  let g :=
    query_iterator (read_frame cols) (empty_frame cols) chunksize rows false in
  gen_error g = None /\ gen_rows g = rows.
Proof.
  intros Hk Hrows. simpl. destruct rows as [| row rows].
  - by rewrite iterate_nil.
  - rewrite iterate_first by done.
    split; [by apply iterate_no_error | by apply iterate_rows].
Qed.

(** Dropping and creating the table of the schema of a repository. *)
Lemma delete_all_existing r w st :
  table_at w (SqlRepository._engine r) (name (SqlRepository._table r))
  = Some st ->
  create_error (name (SqlRepository._table r))
    (columns (SqlRepository._table r)) = None ->
  SqlRepository.delete_all {| self := r; backend := w |}
  = (Ok tt,
     {| self := r;
        backend :=
          set_table w (SqlRepository._engine r)
            (name (SqlRepository._table r)) (name (SqlRepository._table r))
            {| st_columns := columns (SqlRepository._table r);
               st_rows := [] |} |}).
Proof.
  intros Hst Hcreate.
  rewrite sql_delete_all_unfold. simpl.
  unfold mem_Table_drop. rewrite Hst.
  unfold mem_Table_create, table_at. rewrite entry_at_drop_table. simpl.
  by rewrite Hcreate, set_table_drop_table.
Qed.

(** The schema of a repository that the engine accepts is a table it
    holds. *)
Lemma holds_schema (table : Table) (rows : list Row) :
  create_error (name table) (columns table) = None ->
  holds {| st_columns := columns table; st_rows := rows |} = true.
Proof. intros [Hsome Hnodup]%create_error_columns. by apply holds_intro. Qed.

(** The construction, at the location of a file. *)
Lemma init_file (db_loc tn file : string) (table : Table) w :
  resolve db_loc = Ok (Some file) ->
  SqlRepository.__init__ db_loc tn table w
  = match mem_Table_create table {| url := db_loc; database := inl file |} w
    with
    | (Ok _, w1) =>
        (Ok {| SqlRepository._tablename := tn;
               SqlRepository._table := table;
               SqlRepository._engine :=
                 {| url := db_loc; database := inl file |} |},
         w1)
    | (Raise e, w1) => (Raise e, w1)
    end.
Proof.
  intros Hloc. unfold SqlRepository.__init__, bind, ret. simpl.
  unfold mem_create_engine. rewrite Hloc.
  by destruct (mem_Table_create _ _ _) as [[[] | e] w1].
Qed.

(** The construction, for a database in memory. *)
Lemma init_memory (db_loc tn : string) (table : Table) w :
  resolve db_loc = Ok None ->
  let engine := {| url := db_loc; database := inr (engines w) |} in
  let w0 := {| engines := engines w + 1;
               databases := delete (inr (engines w)) (databases w) |} in
  SqlRepository.__init__ db_loc tn table w
  = match mem_Table_create table engine w0 with
    | (Ok _, w1) =>
        (Ok {| SqlRepository._tablename := tn;
               SqlRepository._table := table;
               SqlRepository._engine := engine |},
         w1)
    | (Raise e, w1) => (Raise e, w1)
    end.
Proof.
  intros Hloc. simpl. unfold SqlRepository.__init__, bind, ret. simpl.
  unfold mem_create_engine. rewrite Hloc.
  by destruct (mem_Table_create _ _ _) as [[[] | e] w1].
Qed.

(** The database of a new engine has no table. *)
Lemma table_at_new_engine (db_loc tname : string) w :
  table_at
    {| engines := engines w + 1;
       databases := delete (inr (engines w)) (databases w) |}
    {| url := db_loc; database := inr (engines w) |} tname
  = None.
Proof.
  unfold table_at, entry_at, database_at. simpl.
  by rewrite lookup_delete_eq.
Qed.




End Relational.

(** ** More on the relational repository, on the reference engine *)

Section RelationalMore.
Context `{Dialect}.
Implicit Types (r : SqlRepository.t) (w : World) (st : StoredTable).

(** What [save] does on a table that exists. *)
Lemma save_present r w st (R : DataFrame) :
  table_at w (SqlRepository._engine r) (SqlRepository._tablename r) = Some st ->
  exists declared,
    holds st = true
    /\ SqlRepository.save R {| self := r; backend := w |}
       = match df_rows R with
         | [] => (Ok tt, {| self := r; backend := w |})
         | _ :: _ =>
             match insert_multi (SqlRepository._tablename r) declared
                     (st_columns st) (map fst (df_columns R)) (sent_rows R) with
             | Raise e => (Raise (DaoError e), {| self := r; backend := w |})
             | Ok rows =>
                 (Ok tt,
                  {| self := r;
                     backend :=
                       set_table w (SqlRepository._engine r)
                         (SqlRepository._tablename r) declared
                         {| st_columns := st_columns st;
                            st_rows := st_rows st ++ rows |} |})
             end
         end.
Proof.
  intros (declared & Hentry & Hholds)%table_at_entry_at.
  exists declared. split; [done |].
  rewrite sql_save_unfold. simpl.
  rewrite (mem_to_sql_present _ _ _ _ _ _ Hentry). unfold insert_frame.
  destruct (df_rows R); [done |].
  by destruct (insert_multi _ _ _ _ _).
Qed.

(** X1: the database of a file takes one repository of a schema: once a
    [SqlRepository] is constructed at the location of a file, constructing
    another with the same schema there, under any table name, raises the
    error of the engine for a table that exists, and changes nothing.  At
    the location of a database in memory the second construction returns,
    with an engine that has a database of its own. *)
Theorem init_twice_raises (db_loc tn tn' : string) (table : Table) w
  (r : SqlRepository.t) (w1 : World) :
  SqlRepository.__init__ db_loc tn table w = (Ok r, w1) ->
  (forall file,
     resolve db_loc = Ok (Some file) ->
     SqlRepository.__init__ db_loc tn' table w1
     = (Raise (OperationalError
                 ("table " +:+ spelled (name table) +:+ " already exists")),
        w1))
  /\ (resolve db_loc = Ok None ->
      exists r' w2,
        SqlRepository.__init__ db_loc tn' table w1 = (Ok r', w2)
        /\ database (SqlRepository._engine r')
           <> database (SqlRepository._engine r)).
Proof.
  intros Hinit. split.
  - intros file Hloc.
    rewrite (init_file db_loc tn file table w Hloc) in Hinit.
    rewrite (init_file db_loc tn' file table w1 Hloc).
    unfold mem_Table_create in *.
    destruct (table_at w {| url := db_loc; database := inl file |}
                (name table)); [done |].
    destruct (create_error _ _) eqn:Hcreate; [done |].
    injection Hinit as _ <-.
    rewrite table_at_set_table; [done |]. by apply holds_schema.
  - intros Hloc.
    rewrite (init_memory db_loc tn table w Hloc) in Hinit.
    rewrite (init_memory db_loc tn' table w1 Hloc).
    unfold mem_Table_create in *.
    rewrite table_at_new_engine in *.
    destruct (create_error _ _) eqn:Hcreate; [done |].
    injection Hinit as <- <-.
    eexists. eexists. split; [done |]. simpl. intros [= Heq]. lia.
Qed.

(** X2: constructing a [SqlRepository] at the location of a file touches one
    table, the one of the name of the schema in the database of the file:
    every other table, there and elsewhere, is after the construction what
    it was before, whether the construction returns or raises.  Tables are
    told apart as the engine tells them apart, without regard to case. *)
Theorem init_leaves_other_tables (db_loc tn file : string) (table : Table) w
  (engine' : Engine) (tname' : string) :
  resolve db_loc = Ok (Some file) ->
  (database engine', lower tname') <> (inl file, lower (name table)) ->
  table_at (snd (SqlRepository.__init__ db_loc tn table w)) engine' tname'
  = table_at w engine' tname'.
Proof.
  intros Hloc Hne. rewrite (init_file _ _ _ _ _ Hloc).
  unfold mem_Table_create.
  destruct (table_at w _ (name table)); [done |].
  destruct (create_error _ _); [done |]. simpl.
  by apply table_at_set_table_ne.
Qed.

(** X3: a [save] that raises on a table that exists has written nothing:
    the backend and the repository are after the call what they were
    before. *)
Theorem failed_save_changes_nothing r w st (R : DataFrame) (e : Exception) :
  table_at w (SqlRepository._engine r) (SqlRepository._tablename r) = Some st ->
  fst (SqlRepository.save R {| self := r; backend := w |}) = Raise e ->
  snd (SqlRepository.save R {| self := r; backend := w |})
  = {| self := r; backend := w |}.
Proof.
  intros Hst. destruct (save_present r w st R Hst) as (declared & _ & ->).
  destruct (df_rows R); [done |].
  by destruct (insert_multi _ _ _ _ _).
Qed.



(** X6: [save] of a record set without rows on a table that exists returns
    and changes nothing, whatever the columns of the record set: no
    statement is sent, so that columns the table lacks go unnoticed. *)
Theorem save_without_rows r w st (R : DataFrame) :
  table_at w (SqlRepository._engine r) (SqlRepository._tablename r) = Some st ->
  df_rows R = [] ->
  SqlRepository.save R {| self := r; backend := w |}
  = (Ok tt, {| self := r; backend := w |}).
Proof.
  intros Hst HR. destruct (save_present r w st R Hst) as (declared & _ & ->).
  by rewrite HR.
Qed.

(** X7: when there is no table of the name the repository saves to, [save]
    creates it from the record set, a nullable column for each column of
    the record set, where the engine accepts such a table, and writes the
    rows in a statement the engine takes; [query] then yields them, where
    pandas reads them back as they are stored. *)
Theorem save_creates_missing_table r w (R : DataFrame) (chunksize : Z) :
  table_at w (SqlRepository._engine r) (SqlRepository._tablename r) = None ->
  create_error (SqlRepository._tablename r) (st_columns (frame_table R))
  = None ->
  statement_error (map fst (df_columns R)) (df_rows R) = None ->
  forallb (row_reads (st_columns (frame_table R))) (df_rows R) = true ->
  0 < chunksize < 2 ^ 31 ->
  exists w1 g,
    SqlRepository.save R {| self := r; backend := w |}
    = (Ok tt, {| self := r; backend := w1 |})
    /\ table_at w1 (SqlRepository._engine r) (SqlRepository._tablename r)
       = Some {| st_columns := st_columns (frame_table R);
                 st_rows := df_rows R |}
    /\ SqlRepository.query None chunksize {| self := r; backend := w1 |}
       = (Ok g, {| self := r; backend := w1 |})
    /\ gen_error g = None
    /\ gen_rows g = df_rows R.
Proof.
  intros Habsent Hcreate Hsize Hreads Hk.
  assert (map col_name (st_columns (frame_table R)) = map fst (df_columns R))
    as Hnames by (simpl; rewrite map_map; by apply map_ext).
  pose proof (create_error_columns _ _ Hcreate) as [Hsome Hnodup].
  assert (forall rows,
            holds {| st_columns := st_columns (frame_table R);
                     st_rows := rows |} = true) as Hholds.
  { intros rows. by apply holds_intro. }
  assert (forallb (row_conforms (st_columns (frame_table R))) (df_rows R)
          = true) as Hrows.
  { rewrite forallb_forall in *. intros row Hrow.
    apply row_conforms_reads; [by apply Hreads |].
    simpl. apply Forall_forall. by intros c (k & -> & _)%list_elem_of_fmap. }
  assert (exists w1,
    SqlRepository.save R {| self := r; backend := w |}
    = (Ok tt, {| self := r; backend := w1 |})
    /\ table_at w1 (SqlRepository._engine r) (SqlRepository._tablename r)
       = Some {| st_columns := st_columns (frame_table R);
                 st_rows := df_rows R |}
    /\ created_as w1 (SqlRepository._engine r) (SqlRepository._tablename r))
    as (w1 & Hsave & Hw1 & Hname1).
  { rewrite sql_save_unfold. simpl.
    rewrite (mem_to_sql_absent _ _ _ _ Habsent), Hcreate.
    unfold insert_frame.
    destruct (df_rows R) as [| row rows] eqn:HR.
    - eexists. split; [done |].
      split; [apply table_at_set_table | apply created_as_set_table];
        apply (Hholds []).
    - rewrite <- HR in *.
      assert (sent_rows R = df_rows R) as ->.
      { unfold sent_rows. simpl in Hsome. by destruct (df_columns R). }
      rewrite <- Hnames in *.
      rewrite insert_multi_conforming by done.
      eexists. split; [done |]. rewrite set_table_set_table.
      split; [apply table_at_set_table | apply created_as_set_table];
        apply Hholds. }
  exists w1. eexists. split; [done |]. split; [done |].
  split; [by apply query_table |]. simpl.
  by apply query_iterator_reads.
Qed.


(** X9: [save] touches one table, the one of the name of the repository in
    the database of its engine: every other table, there and elsewhere, is
    after the call what it was before, whether [save] returns or raises.
    Tables are told apart as the engine tells them apart, without regard to
    case. *)
Theorem save_leaves_other_tables r w (R : DataFrame) (engine' : Engine)
  (tname' : string) :
  (database engine', lower tname')
  <> (database (SqlRepository._engine r), lower (SqlRepository._tablename r)) ->
  table_at (backend (snd (SqlRepository.save R {| self := r; backend := w |})))
    engine' tname'
  = table_at w engine' tname'.
Proof.
  intros Hne.
  destruct (table_at w (SqlRepository._engine r) (SqlRepository._tablename r))
    as [st |] eqn:Hst.
  - destruct (save_present r w st R Hst) as (declared & _ & ->).
    destruct (df_rows R); [done |].
    destruct (insert_multi _ _ _ _ _); simpl; [| done].
    by apply table_at_set_table_ne.
  - rewrite sql_save_unfold. simpl.
    rewrite (mem_to_sql_absent _ _ _ _ Hst).
    destruct (create_error _ _); [done |]. unfold insert_frame.
    destruct (df_rows R); simpl; [by apply table_at_set_table_ne |].
    destruct (insert_multi _ _ _ _ _); simpl;
      by rewrite !table_at_set_table_ne.
Qed.

(** X11: [delete_all] on a repository the table of whose schema does not
    exist raises the error of the engine for the drop, and creates
    nothing. *)
Theorem delete_all_without_table_raises r w :
  table_at w (SqlRepository._engine r) (name (SqlRepository._table r)) = None ->
  SqlRepository.delete_all {| self := r; backend := w |}
  = (Raise (OperationalError
              ("no such table: " +:+ name (SqlRepository._table r))),
     {| self := r; backend := w |}).
Proof.
  intros Hst. rewrite sql_delete_all_unfold. simpl.
  unfold mem_Table_drop. by rewrite Hst.
Qed.

(** X12: a second [delete_all] changes nothing: after [delete_all] on a
    repository the table of whose schema exists, and whose schema the
    engine accepts as the definition of a table, [delete_all] returns again
    and leaves the backend as it found it. *)
Theorem delete_all_twice r w st :
  table_at w (SqlRepository._engine r) (name (SqlRepository._table r))
  = Some st ->
  create_error (name (SqlRepository._table r))
    (columns (SqlRepository._table r)) = None ->
  let s1 := snd (SqlRepository.delete_all {| self := r; backend := w |}) in
  fst (SqlRepository.delete_all {| self := r; backend := w |}) = Ok tt
  /\ SqlRepository.delete_all s1 = (Ok tt, s1).
Proof.
  intros Hst Hcreate s1. subst s1.
  rewrite (delete_all_existing r w st Hst Hcreate). simpl.
  split; [done |].
  rewrite (delete_all_existing r _ _
             (table_at_set_table _ _ _ _ _ (holds_schema _ [] Hcreate))
             Hcreate).
  by rewrite set_table_set_table.
Qed.


(** X14: [query] with no filter and a chunk size the driver takes that is at
    least the number of rows of a table that has some yields one chunk,
    which holds all the rows under the columns of the table, where the
    table was created under the name of the repository and pandas reads the
    rows back as they are stored. *)
Theorem query_single_chunk r w st (chunksize : Z) :
  table_at w (SqlRepository._engine r) (SqlRepository._tablename r) = Some st ->
  created_as w (SqlRepository._engine r) (SqlRepository._tablename r) ->
  st_rows st <> [] ->
  forallb (row_reads (st_columns st)) (st_rows st) = true ->
  Z.of_nat (length (st_rows st)) <= chunksize < 2 ^ 31 ->
  SqlRepository.query None chunksize {| self := r; backend := w |}
  = (Ok (GenYield
           {| df_columns :=
                map (fun c => (col_name c, col_type c)) (st_columns st);
              df_rows := st_rows st |}
           GenStop),
     {| self := r; backend := w |}).
Proof.
  intros Hst Hname Hrows Hreads Hk. rewrite (query_table _ _ _ _ Hst Hname).
  assert (0 < chunksize < 2 ^ 31) as Hfits.
  { destruct (st_rows st); [done |]. simpl in Hk. lia. }
  rewrite iterate_turn by done.
  rewrite take_ge, drop_ge by lia. rewrite iterate_nil by done.
  by destruct (st_rows st).
Qed.

End RelationalMore.

(** ** The examples, on the strict dialect *)

Section Examples.
#[local] Existing Instance strict.

(** The scenario of the specification: construct, save two rows, query,
    delete all, query. *)
Example ctd_scenario :
  let deleted :=
    snd (SqlRepository.delete_all
           {| self := ctd_repo; backend := saved_once |}) in
  SqlRepository.__init__ genie_db CTD_TABLE_NAME CTD_DAO_TABLE ∅
  = (Ok ctd_repo, ctd_world)
  /\ SqlRepository.save two_associations
       {| self := ctd_repo; backend := ctd_world |}
     = (Ok tt, {| self := ctd_repo; backend := saved_once |})
  /\ (exists g,
        fst (SqlRepository.query None 10
               {| self := ctd_repo; backend := saved_once |}) = Ok g
        /\ gen_error g = None
        /\ gen_rows g = df_rows two_associations)
  /\ fst (SqlRepository.delete_all
            {| self := ctd_repo; backend := saved_once |}) = Ok tt
  /\ (exists g,
        fst (SqlRepository.query None 10 deleted) = Ok g
        /\ gen_error g = None
        /\ gen_rows g = []).
Proof.
  split; [by vm_compute |]. split; [by vm_compute |].
  split; [eexists; by vm_compute |].
  split; [by vm_compute |]. eexists. by vm_compute.
Qed.

(** A failure of the backend reaches the caller of [save] inside a
    [DaoError]. *)
Example save_one_score_raises :
  SqlRepository.save one_score {| self := ctd_repo; backend := ctd_world |}
  = (Raise (DaoError
              (OperationalError "table ctd has no column named pub_score")),
     {| self := ctd_repo; backend := ctd_world |}).
Proof. by vm_compute. Qed.

(** What the construction makes of a location: a string that is no URL, and
    a database in memory. *)
Example init_locations :
  SqlRepository.__init__ "not-a-url" CTD_TABLE_NAME CTD_DAO_TABLE ∅
  = (Raise (ArgumentError
              "Could not parse SQLAlchemy URL from string 'not-a-url'"),
     ∅)
  /\ exists w1,
       SqlRepository.__init__ memory_db CTD_TABLE_NAME CTD_DAO_TABLE ctd_world
       = (Ok {| SqlRepository._tablename := CTD_TABLE_NAME;
                SqlRepository._table := CTD_DAO_TABLE;
                SqlRepository._engine :=
                  {| url := memory_db; database := inr 0%N |} |},
          w1).
Proof. split; [by vm_compute |]. eexists. by vm_compute. Qed.




(** The chunks of that query: three rows, then one. *)
Example query_chunks_sizes :
  exists g,
    fst (SqlRepository.query None 3
           {| self := ctd_repo; backend := saved_twice |}) = Ok g
    /\ map (fun c => length (df_rows c)) (gen_chunks g) = [3%nat; 1%nat].
Proof. eexists. split; by vm_compute. Qed.


(** C3 at the input on which it fails: [misnamed_repo] saves to the table
    "associations" and [delete_all] drops and creates the table "ctd", so
    that [query] after [delete_all] still yields the rows saved. *)
Lemma delete_all_misses_misnamed_table :
  let s := {| self := misnamed_repo; backend := misnamed_world |} in
  fst (SqlRepository.__init__ genie_db "associations" CTD_DAO_TABLE ∅)
  = Ok misnamed_repo
  /\ fst (SqlRepository.delete_all s) = Ok tt
  /\ exists g,
       fst (SqlRepository.query None 10 (snd (SqlRepository.delete_all s)))
       = Ok g
       /\ gen_error g = None
       /\ gen_rows g = df_rows two_associations
       /\ gen_rows g <> [].
Proof.
  split; [by vm_compute |]. split; [by vm_compute |].
  eexists. split; [by vm_compute |]. split; [by vm_compute |].
  split; by vm_compute.
Qed.




(** Counterexample to C9: the constructor of [GbqRepository] returns a
    repository without credentials, whatever it finds at the path. *)
Lemma gbq_init_reads_no_credentials :
  ~ exists (r : GbqRepository.t) (c : Credentials),
      fst (GbqRepository.__init__ "genie-project" "test.ctd" CTD_DAO_TABLE
             "credentials.json" (∅ : World)) = Ok r
      /\ GbqRepository._credentials r = Some c.
Proof. intros (r & c & [= <-] & Hc). discriminate. Qed.

(** Witness of X1: a second repository of the associations in the file of
    the first. *)
Lemma init_twice_raises_witness :
  SqlRepository.__init__ genie_db "associations" CTD_DAO_TABLE ctd_world
  = (Raise (OperationalError "table ctd already exists"), ctd_world).
Proof.
  destruct (@init_twice_raises strict genie_db CTD_TABLE_NAME "associations"
              CTD_DAO_TABLE ∅ ctd_repo ctd_world) as [Hfile _];
    [by vm_compute |].
  apply (Hfile "genie.db"). by vm_compute.
Defined.

(** Witness of X2: a repository of publications is constructed where the
    associations are. *)
Lemma init_leaves_other_tables_witness :
  table_at
    (snd (SqlRepository.__init__ genie_db PUBMED_TABLE_NAME PUBMED_DAO_TABLE
            saved_once))
    genie_engine CTD_TABLE_NAME
  = table_at saved_once genie_engine CTD_TABLE_NAME.
Proof.
  apply (@init_leaves_other_tables strict genie_db PUBMED_TABLE_NAME
           "genie.db" PUBMED_DAO_TABLE saved_once genie_engine
           CTD_TABLE_NAME);
    by vm_compute.
Defined.

(** Witness of X3: the scores of the classifier are refused by the table of
    associations. *)
Lemma failed_save_changes_nothing_witness :
  snd (SqlRepository.save one_score
         {| self := ctd_repo; backend := saved_once |})
  = {| self := ctd_repo; backend := saved_once |}.
Proof.
  apply (@failed_save_changes_nothing strict ctd_repo saved_once
           {| st_columns := columns CTD_DAO_TABLE;
              st_rows := df_rows two_associations |}
           one_score
           (DaoError
              (OperationalError "table ctd has no column named pub_score")));
    by vm_compute.
Defined.



(** Witness of X6: no score of the classifier for the table of
    associations. *)
Lemma save_without_rows_witness :
  SqlRepository.save no_score {| self := ctd_repo; backend := saved_once |}
  = (Ok tt, {| self := ctd_repo; backend := saved_once |}).
Proof.
  apply (@save_without_rows strict ctd_repo saved_once
           {| st_columns := columns CTD_DAO_TABLE;
              st_rows := df_rows two_associations |}
           no_score);
    by vm_compute.
Defined.

(** Witness of X7: the scores of the classifier are saved by a repository
    whose table is not there, into a table of their columns. *)
Lemma save_creates_missing_table_witness :
  exists w1 g,
    SqlRepository.save one_score
      {| self := misnamed_repo; backend := ctd_world |}
    = (Ok tt, {| self := misnamed_repo; backend := w1 |})
    /\ table_at w1 genie_engine "associations"
       = Some {| st_columns := st_columns (frame_table one_score);
                 st_rows := df_rows one_score |}
    /\ SqlRepository.query None 10
         {| self := misnamed_repo; backend := w1 |}
       = (Ok g, {| self := misnamed_repo; backend := w1 |})
    /\ gen_error g = None
    /\ gen_rows g = df_rows one_score.
Proof.
  apply (@save_creates_missing_table strict misnamed_repo ctd_world one_score
           10);
    by vm_compute.
Defined.


(** Witness of X9: the table of the misnamed repository when the repository
    of the associations saves. *)
Lemma save_leaves_other_tables_witness :
  table_at
    (backend (snd (SqlRepository.save two_associations
                     {| self := ctd_repo; backend := misnamed_world |})))
    genie_engine "associations"
  = table_at misnamed_world genie_engine "associations".
Proof.
  apply (@save_leaves_other_tables strict ctd_repo misnamed_world
           two_associations genie_engine "associations").
  by vm_compute.
Defined.

(** Witness of X11: [delete_all] at a location without tables. *)
Lemma delete_all_without_table_raises_witness :
  SqlRepository.delete_all {| self := ctd_repo; backend := ∅ |}
  = (Raise (OperationalError
              ("no such table: " +:+ name (SqlRepository._table ctd_repo))),
     {| self := ctd_repo; backend := ∅ |}).
Proof.
  apply (@delete_all_without_table_raises strict ctd_repo ∅).
  by vm_compute.
Defined.

(** Witness of X12: [delete_all] twice on the two associations. *)
Lemma delete_all_twice_witness :
  fst (SqlRepository.delete_all
         {| self := ctd_repo; backend := saved_once |}) = Ok tt
  /\ SqlRepository.delete_all
       (snd (SqlRepository.delete_all
               {| self := ctd_repo; backend := saved_once |}))
     = (Ok tt,
        snd (SqlRepository.delete_all
               {| self := ctd_repo; backend := saved_once |})).
Proof.
  apply (@delete_all_twice strict ctd_repo saved_once
           {| st_columns := columns CTD_DAO_TABLE;
              st_rows := df_rows two_associations |});
    by vm_compute.
Defined.

(** Without columns in the schema, [delete_all] drops the table and then
    raises: the engine refuses the table it is to create. *)
Example delete_all_fails_without_columns :
  let s := {| self := {| SqlRepository._tablename := CTD_TABLE_NAME;
                         SqlRepository._table := columnless;
                         SqlRepository._engine := genie_engine |};
              backend := saved_once |} in
  is_Some (table_at saved_once genie_engine (name columnless))
  /\ (exists e, fst (SqlRepository.delete_all s) = Raise e)
  /\ table_at (backend (snd (SqlRepository.delete_all s))) genie_engine
       (name columnless) = None.
Proof.
  split; [by eexists; vm_compute |].
  split; [eexists |]; by vm_compute.
Qed.


(** Witness of X14: two associations in a chunk of two. *)
Lemma query_single_chunk_witness :
  SqlRepository.query None 2 {| self := ctd_repo; backend := saved_once |}
  = (Ok (GenYield
           {| df_columns := df_columns two_associations;
              df_rows := df_rows two_associations |}
           GenStop),
     {| self := ctd_repo; backend := saved_once |}).
Proof.
  apply (@query_single_chunk strict ctd_repo saved_once
           {| st_columns := columns CTD_DAO_TABLE;
              st_rows := df_rows two_associations |}
           2);
    by vm_compute.
Defined.

End Examples.
